(** * The chat widget of src/components/ChatBot.tsx

    A shallow embedding of the [ChatBot] component: its React state, the
    module-level completion client, the asynchronous submission handler
    [handleSendMessage] (split at its single [await]) and the click handlers
    of the visibility buttons, and the tree the component renders, followed
    by the properties of the conversation store that the specification
    states and by further properties of the handlers and of the view. *)

From Stdlib Require Import List Bool Arith NArith ZArith QArith Ascii String Lia.
Import ListNotations.
Local Close Scope Q_scope.

(** ** JavaScript values used by the component *)

Module JS.

(** A JavaScript string is a sequence of UTF-16 code units. *)
Definition code_unit : Type := N.
Definition jsstring : Type := list code_unit.

(** A source literal made of ASCII characters only. *)
Definition lit (s : String.string) : jsstring :=
  map N_of_ascii (list_ascii_of_string s).

(** ECMAScript WhiteSpace and LineTerminator code points; all of them lie
    in the basic plane, so they are single code units. *)
Definition is_white_space (c : code_unit) : bool :=
  ((9 <=? c) && (c <=? 13)            (* TAB, LF, VT, FF, CR *)
   || (c =? 32)                       (* SPACE *)
   || (c =? 160)                      (* NO-BREAK SPACE *)
   || (c =? 5760)                     (* OGHAM SPACE MARK *)
   || ((8192 <=? c) && (c <=? 8202))  (* EN QUAD .. HAIR SPACE *)
   || (c =? 8232) || (c =? 8233)      (* LINE / PARAGRAPH SEPARATOR *)
   || (c =? 8239)                     (* NARROW NO-BREAK SPACE *)
   || (c =? 8287)                     (* MEDIUM MATHEMATICAL SPACE *)
   || (c =? 12288)                    (* IDEOGRAPHIC SPACE *)
   || (c =? 65279))%N.                (* ZERO WIDTH NO-BREAK SPACE *)

Fixpoint trimStart (s : jsstring) : jsstring :=
  match s with
  | [] => []
  | c :: s' => if is_white_space c then trimStart s' else s
  end.

Definition trimEnd (s : jsstring) : jsstring :=
  rev (trimStart (rev s)).

(** [String.prototype.trim]. *)
Definition trim (s : jsstring) : jsstring :=
  trimEnd (trimStart s).


(** [ToBoolean] on a string: only the empty string is falsy. *)
Definition truthy (s : jsstring) : bool :=
  match s with
  | [] => false
  | _ :: _ => true
  end.

(** [ToBoolean] on a value that is a string, [null] or [undefined]. *)
Definition truthy_opt (v : option jsstring) : bool :=
  match v with
  | Some s => truthy s
  | None => false
  end.

(** [Boolean(x)] for an object reference that may be [null]. *)
Definition Boolean {A : Type} (x : option A) : bool :=
  match x with
  | Some _ => true
  | None => false
  end.

(** Values that reach a [catch] clause. *)
Inductive Thrown : Type :=
| TypeError (msg : jsstring)
| APIConnectionError (msg : jsstring)
| APIStatusError (status : N) (msg : jsstring)
| ThrownValue (v : jsstring).

(** [new Date()]: milliseconds since the epoch. *)
Definition Date : Type := Z.

End JS.

Import JS.

(** ** The part of the [openai] package the component touches *)

Module OpenAI.

Inductive Role : Type := system | user | assistant.

Record ChatCompletionMessageParam : Type := {
  role : Role;
  content : jsstring
}.

Record ChatCompletionCreateParams : Type := {
  messages : list ChatCompletionMessageParam;
  model : jsstring;
  temperature : Q;
  max_tokens : N
}.

Record ClientOptions : Type := {
  apiKey : jsstring;
  dangerouslyAllowBrowser : bool
}.

(** A constructed client remembers the options it was built with. *)
Record Client : Type := { options : ClientOptions }.

(** The response, as far as [completion.choices[0]?.message?.content]
    looks into it.  [None] stands for [undefined] or [null]. *)
Module Completion.
Record ChatCompletionMessage : Type := { content : option jsstring }.
Record Choice : Type := { message : option ChatCompletionMessage }.
Record ChatCompletion : Type := { choices : option (list Choice) }.
End Completion.

(** How the promise returned by [chat.completions.create] settles. *)
Inductive Settled : Type :=
| Fulfilled (completion : Completion.ChatCompletion)
| Rejected (error : Thrown).

End OpenAI.

(** ** Data model *)

Record Message : Type := {
  text : jsstring;
  isBot : bool;
  timestamp : Date
}.

Definition warning_sign : jsstring := [9888; 65039]%N.

Definition nl : jsstring := [10%N].

Definition SYSTEM_PROMPT : jsstring :=
  lit "You are an expert educational AI tutor. You can help with any subject including Mathematics, Physics, Chemistry, Biology, History, Literature, Computer Science, and more. Your responses should be:"
  ++ nl ++ lit "1. Educational and accurate"
  ++ nl ++ lit "2. Clear and easy to understand"
  ++ nl ++ lit "3. Concise but thorough"
  ++ nl ++ lit "4. Include examples when helpful"
  ++ nl ++ lit "5. Encourage critical thinking"
  ++ nl
  ++ nl ++ lit "If a question is unclear, ask for clarification. If a topic is complex, break it down into simpler parts.".

Definition GREETING : jsstring :=
  lit "Hi! I'm your AI learning assistant. I can help you with any subject. What would you like to learn about?".

Definition KEY_MISSING_SEED : jsstring :=
  warning_sign ++ lit " OpenAI API key is not configured. Please add your API key to the .env file to enable AI responses.".

Definition KEY_MISSING_REPLY : jsstring :=
  warning_sign ++ lit " I can't respond right now because the OpenAI API key is not configured. Please add your API key to continue.".

Definition FALLBACK : jsstring :=
  lit "I'm sorry, I'm having trouble connecting right now. Please try again in a moment.".

Definition MODEL : jsstring := lit "gpt-3.5-turbo".
Definition TEMPERATURE : Q := (7 # 10)%Q.
Definition MAX_TOKENS : N := 500%N.

(** The six [useState] cells of the component. *)
Record State : Type := {
  isOpen : bool;
  isMinimized : bool;
  message : jsstring;
  isLoading : bool;
  messages : list Message;
  isApiKeySet : bool
}.

Record LogEntry : Type := {
  label : jsstring;
  logged : Thrown
}.

(** Everything a handler can read or change: the React state, the
    module-level [openai] handle, the requests handed to the client so far,
    those whose promise has not settled yet, the console, and the clock
    that answers successive [new Date()] calls. *)
Record World : Type := {
  hooks : State;
  openai : option OpenAI.Client;
  network : list OpenAI.ChatCompletionCreateParams;
  inflight : list OpenAI.ChatCompletionCreateParams;
  console : list LogEntry;
  clock : nat -> Date;
  ticks : nat
}.

(** ** Handlers as state transformers *)

Definition M (A : Type) : Type := World -> A * World.

Definition ret {A : Type} (a : A) : M A := fun w => (a, w).

Definition bind {A B : Type} (c : M A) (k : A -> M B) : M B :=
  fun w => let (a, w') := c w in k a w'.

Declare Scope handler_scope.
Delimit Scope handler_scope with handler.
Notation "x <- c ;; k" := (bind c (fun x => k))
  (at level 61, c at next level, right associativity) : handler_scope.
Notation "c ;; k" := (bind c (fun _ => k))
  (at level 61, right associativity) : handler_scope.
Local Open Scope handler_scope.

Definition exec {A : Type} (c : M A) (w : World) : World := snd (c w).

Definition with_hooks (f : State -> State) : M unit :=
  fun w => (tt, {| hooks := f (hooks w); openai := openai w;
                   network := network w; inflight := inflight w;
                   console := console w; clock := clock w;
                   ticks := ticks w |}).

Definition setIsOpen (b : bool) : M unit :=
  with_hooks (fun s =>
    {| isOpen := b; isMinimized := isMinimized s; message := message s;
       isLoading := isLoading s; messages := messages s;
       isApiKeySet := isApiKeySet s |}).

Definition setIsMinimized (b : bool) : M unit :=
  with_hooks (fun s =>
    {| isOpen := isOpen s; isMinimized := b; message := message s;
       isLoading := isLoading s; messages := messages s;
       isApiKeySet := isApiKeySet s |}).

Definition setMessage (v : jsstring) : M unit :=
  with_hooks (fun s =>
    {| isOpen := isOpen s; isMinimized := isMinimized s; message := v;
       isLoading := isLoading s; messages := messages s;
       isApiKeySet := isApiKeySet s |}).

Definition setIsLoading (b : bool) : M unit :=
  with_hooks (fun s =>
    {| isOpen := isOpen s; isMinimized := isMinimized s; message := message s;
       isLoading := b; messages := messages s;
       isApiKeySet := isApiKeySet s |}).

(** [setMessages(prev => f(prev))]; a plain [setMessages(v)] is the constant
    updater. *)
Definition setMessages (f : list Message -> list Message) : M unit :=
  with_hooks (fun s =>
    {| isOpen := isOpen s; isMinimized := isMinimized s; message := message s;
       isLoading := isLoading s; messages := f (messages s);
       isApiKeySet := isApiKeySet s |}).

Definition newDate : M Date :=
  fun w => (clock w (ticks w),
            {| hooks := hooks w; openai := openai w; network := network w;
               inflight := inflight w; console := console w;
               clock := clock w; ticks := S (ticks w) |}).

Definition console_error (l : jsstring) (e : Thrown) : M unit :=
  fun w => (tt, {| hooks := hooks w; openai := openai w; network := network w;
                   inflight := inflight w;
                   console := console w ++ [{| label := l; logged := e |}];
                   clock := clock w; ticks := ticks w |}).

Definition readOpenai : M (option OpenAI.Client) :=
  fun w => (openai w, w).

(** [client.chat.completions.create(params)]: the request leaves, and its
    promise is pending. *)
Definition create (client : OpenAI.Client)
    (params : OpenAI.ChatCompletionCreateParams) : M unit :=
  fun w => (tt, {| hooks := hooks w; openai := openai w;
                   network := network w ++ [params];
                   inflight := inflight w ++ [params];
                   console := console w; clock := clock w;
                   ticks := ticks w |}).

(** ** [handleSendMessage] *)

Definition toParam (msg : Message) : OpenAI.ChatCompletionMessageParam :=
  {| OpenAI.role := if isBot msg then OpenAI.assistant else OpenAI.user;
     OpenAI.content := text msg |}.

(** The argument of [create], built from the render's [messages] and
    [message]. *)
Definition request (cl : State) : OpenAI.ChatCompletionCreateParams :=
  {| OpenAI.messages :=
       [{| OpenAI.role := OpenAI.system; OpenAI.content := SYSTEM_PROMPT |}]
       ++ map toParam (messages cl)
       ++ [{| OpenAI.role := OpenAI.user; OpenAI.content := message cl |}];
     OpenAI.model := MODEL;
     OpenAI.temperature := TEMPERATURE;
     OpenAI.max_tokens := MAX_TOKENS |}.

(** The [catch] clause. *)
Definition on_catch (error : Thrown) : M unit :=
  console_error (lit "Error getting AI response:") error ;;
  t <- newDate ;;
  let errorMessage := {| text := FALLBACK; isBot := true; timestamp := t |} in
  setMessages (fun prev => prev ++ [errorMessage]).

(** [completion.choices[0]?.message?.content]: indexing a missing [choices]
    throws, every later step is optional. *)
Definition first_choice_content (completion : OpenAI.Completion.ChatCompletion)
    : Thrown + option jsstring :=
  match OpenAI.Completion.choices completion with
  | None => inl (TypeError (lit "Cannot read properties of undefined (reading '0')"))
  | Some cs =>
      inr (match nth_error cs 0 with
           | None => None
           | Some choice =>
               match OpenAI.Completion.message choice with
               | None => None
               | Some m => OpenAI.Completion.content m
               end
           end)
  end.

(** The guard of the first statement: [!message.trim() || isLoading]. *)
Definition ignored (cl : State) : bool :=
  negb (truthy (trim (message cl))) || isLoading cl.

(** The handler up to its [await].  [cl] is the state the render that
    created the handler closed over; [e.preventDefault()] touches none of
    the modelled state. *)
Definition handleSendMessage (cl : State) : M unit :=
  if ignored cl then ret tt
  else
    t <- newDate ;;
    let userMessage := {| text := message cl; isBot := false; timestamp := t |} in
    setMessages (fun prev => prev ++ [userMessage]) ;;
    setMessage [] ;;
    if negb (isApiKeySet cl) then
      t' <- newDate ;;
      setMessages (fun prev => prev ++
        [{| text := KEY_MISSING_REPLY; isBot := true; timestamp := t' |}])
    else
      setIsLoading true ;;
      handle <- readOpenai ;;
      match handle with
      | None =>
          (* [openai!] on a null handle throws inside the [try] *)
          on_catch (TypeError (lit "Cannot read properties of null (reading 'chat')")) ;;
          setIsLoading false
      | Some client => create client (request cl)
      end.

(** The handler from the [await] on, once the promise has settled. *)
Definition handleSendMessage_resume (settled : OpenAI.Settled) : M unit :=
  match settled with
  | OpenAI.Fulfilled completion =>
      match first_choice_content completion with
      | inl error => on_catch error
      | inr botResponse =>
          match botResponse with
          | Some reply =>
              if truthy reply then
                t <- newDate ;;
                let botMessage := {| text := reply; isBot := true; timestamp := t |} in
                setMessages (fun prev => prev ++ [botMessage])
              else ret tt
          | None => ret tt
          end
      end
  | OpenAI.Rejected error => on_catch error
  end ;;
  setIsLoading false.

(** ** Startup and mount *)

Section Startup.

(** [new OpenAI(options)] belongs to the [openai] package: it either
    returns a client or throws. *)
Variable newOpenAI : OpenAI.ClientOptions -> Thrown + OpenAI.Client.

(** The module-level [try] block: the handle that results from the value
    of [import.meta.env.VITE_OPENAI_API_KEY], and what was logged. *)
Definition init_openai (apiKey : option jsstring)
    : option OpenAI.Client * list LogEntry :=
  match apiKey with
  | Some key =>
      if truthy key then
        match newOpenAI {| OpenAI.apiKey := key;
                           OpenAI.dangerouslyAllowBrowser := true |} with
        | inr client => (Some client, [])
        | inl error =>
            (None, [{| label := lit "Error initializing OpenAI client:";
                       logged := error |}])
        end
      else (None, [])
  | None => (None, [])
  end.

(** The initial values passed to the [useState] calls. *)
Definition initial (handle : option OpenAI.Client) : State :=
  {| isOpen := false; isMinimized := false; message := [];
     isLoading := false; messages := [];
     isApiKeySet := Boolean handle |}.

(** The body of the [useEffect] keyed on [isApiKeySet]. *)
Definition seed_effect (cl : State) : M unit :=
  t <- newDate ;;
  setMessages (fun _ =>
    [{| text := if isApiKeySet cl then GREETING else KEY_MISSING_SEED;
        isBot := true;
        timestamp := t |}]).

(** The widget after its first render and mount effect. *)
Definition mount (apiKey : option jsstring) (clk : nat -> Date) : World :=
  let (handle, logs) := init_openai apiKey in
  let st := initial handle in
  exec (seed_effect st)
    {| hooks := st; openai := handle; network := []; inflight := [];
       console := logs; clock := clk; ticks := 0 |}.

End Startup.

(** ** Events *)

Inductive Event : Type :=
| ClickOpen
| ClickMinimize
| ClickClose
| Change (value : jsstring)
| Submit
| Settle (settled : OpenAI.Settled).

(** The oldest pending promise settles; [false] when none is pending. *)
Definition take_inflight : M bool :=
  fun w =>
    match inflight w with
    | [] => (false, w)
    | _ :: rest =>
        (true, {| hooks := hooks w; openai := openai w; network := network w;
                  inflight := rest; console := console w; clock := clock w;
                  ticks := ticks w |})
    end.

(** One turn of the event loop.  Every handler closes over the state of
    the latest render, which is the current state. *)
Definition dispatch (ev : Event) : M unit :=
  fun w =>
    let cl := hooks w in
    match ev with
    | ClickOpen => setIsOpen true w
    | ClickMinimize => setIsMinimized (negb (isMinimized cl)) w
    | ClickClose => setIsOpen false w
    | Change value => setMessage value w
    | Submit => handleSendMessage cl w
    | Settle settled =>
        (pending <- take_inflight ;;
         if pending then handleSendMessage_resume settled else ret tt) w
    end.

Definition step (w : World) (ev : Event) : World := exec (dispatch ev) w.

Definition run (evs : list Event) (w : World) : World := fold_left step evs w.

Definition is_visibility (ev : Event) : bool :=
  match ev with
  | ClickOpen | ClickMinimize | ClickClose => true
  | _ => false
  end.

(** Worlds the widget can be in: mounted, then any sequence of events. *)
Inductive reachable : World -> Prop :=
| reach_mount newOpenAI apiKey clk :
    reachable (mount newOpenAI apiKey clk)
| reach_step w ev :
    reachable w -> reachable (step w ev).

(** The user Message built by a submission made in world [w]. *)
Definition userMessage_of (w : World) : Message :=
  {| text := message (hooks w); isBot := false;
     timestamp := clock w (ticks w) |}.

(** ** Concrete worlds used in the examples *)

Definition newOpenAI_ok (o : OpenAI.ClientOptions)
    : Thrown + OpenAI.Client :=
  inr {| OpenAI.options := o |}.

Definition tick_clock (n : nat) : Date := (1700000000000 + Z.of_nat n)%Z.

Definition demo_keyed : World :=
  mount newOpenAI_ok (Some (lit "sk-demo")) tick_clock.

Definition demo_unkeyed : World :=
  mount newOpenAI_ok None tick_clock.

Definition reply_with (c : option jsstring) : OpenAI.Settled :=
  OpenAI.Fulfilled
    {| OpenAI.Completion.choices :=
         Some [{| OpenAI.Completion.message :=
                    Some {| OpenAI.Completion.content := c |} |}] |}.

(** ** Invariants and relations used below *)

(** The state cell [isApiKeySet] mirrors the module-level handle, a promise
    is pending exactly while [isLoading] is set, and without a handle no
    request has ever left. *)
Definition Inv (w : World) : Prop :=
  isApiKeySet (hooks w) = Boolean (openai w) /\
  List.length (inflight w) = (if isLoading (hooks w) then 1 else 0) /\
  (openai w = None -> network w = []).

(** Two worlds that differ at most in the visibility cells [isOpen] and
    [isMinimized]. *)
Definition same_conversation (w1 w2 : World) : Prop :=
  message (hooks w1) = message (hooks w2) /\
  isLoading (hooks w1) = isLoading (hooks w2) /\
  messages (hooks w1) = messages (hooks w2) /\
  isApiKeySet (hooks w1) = isApiKeySet (hooks w2) /\
  openai w1 = openai w2 /\
  network w1 = network w2 /\
  inflight w1 = inflight w2 /\
  console w1 = console w2 /\
  clock w1 = clock w2 /\
  ticks w1 = ticks w2.

Definition bots (l : list Message) : nat := List.length (filter isBot l).

Definition humans (l : list Message) : nat :=
  List.length (filter (fun m => negb (isBot m)) l).


(** ** What one event does to the conversation *)

(** The five ways an event can act on the store, the loading flag, the
    request log, the pending promises and the clock. *)
Inductive effect (w w' : World) : Prop :=
| eff_quiet :
    messages (hooks w') = messages (hooks w) ->
    isLoading (hooks w') = isLoading (hooks w) ->
    network w' = network w ->
    inflight w' = inflight w ->
    ticks w' = ticks w ->
    effect w w'
| eff_refused :
    openai w = None ->
    isLoading (hooks w) = false ->
    messages (hooks w') =
      messages (hooks w) ++
      [userMessage_of w;
       {| text := KEY_MISSING_REPLY; isBot := true;
          timestamp := clock w (S (ticks w)) |}] ->
    isLoading (hooks w') = false ->
    network w' = network w ->
    inflight w' = inflight w ->
    ticks w' = S (S (ticks w)) ->
    effect w w'
| eff_sent (client : OpenAI.Client) :
    openai w = Some client ->
    isLoading (hooks w) = false ->
    messages (hooks w') = messages (hooks w) ++ [userMessage_of w] ->
    isLoading (hooks w') = true ->
    network w' = network w ++ [request (hooks w)] ->
    inflight w' = [request (hooks w)] ->
    ticks w' = S (ticks w) ->
    effect w w'
| eff_answered (reply : jsstring) :
    isLoading (hooks w) = true ->
    messages (hooks w') =
      messages (hooks w) ++
      [{| text := reply; isBot := true; timestamp := clock w (ticks w) |}] ->
    isLoading (hooks w') = false ->
    network w' = network w ->
    inflight w' = [] ->
    ticks w' = S (ticks w) ->
    effect w w'
| eff_silent :
    isLoading (hooks w) = true ->
    messages (hooks w') = messages (hooks w) ->
    isLoading (hooks w') = false ->
    network w' = network w ->
    inflight w' = [] ->
    ticks w' = ticks w ->
    effect w w'.


(** The first record of every payload. *)
Definition system_record : OpenAI.ChatCompletionMessageParam :=
  {| OpenAI.role := OpenAI.system; OpenAI.content := SYSTEM_PROMPT |}.

(** The content of the last record of a payload. *)
Definition final_content (params : OpenAI.ChatCompletionCreateParams)
    : jsstring :=
  last (map OpenAI.content (OpenAI.messages params)) [].

(** ** The rendered tree *)

(** The props the JSX of the component sets. *)
Record Props : Type := {
  className : jsstring;
  key : option nat;
  onClick : option Event;
  onSubmit : option Event;
  onChange : option (jsstring -> Event);
  type : option jsstring;
  value : option jsstring;
  placeholder : option jsstring;
  disabled : option bool
}.

(** An element that only has a [className]. *)
Definition styled (c : jsstring) : Props :=
  {| className := c; key := None; onClick := None; onSubmit := None;
     onChange := None; type := None; value := None; placeholder := None;
     disabled := None |}.

(** A button with a click handler; [ev] is the event its handler stands
    for. *)
Definition clickable (c : jsstring) (ev : Event) : Props :=
  {| className := c; key := None; onClick := Some ev; onSubmit := None;
     onChange := None; type := None; value := None; placeholder := None;
     disabled := None |}.

Local Set Warnings "-register-all".

(** React elements: host elements, text, the icon components of
    [lucide-react], fragments, arrays of children, and the [false] that a
    failed [cond && ...] leaves among the children. *)
Inductive Element : Type :=
| El (tag : String.string) (props : Props) (children : list Element)
| Txt (s : jsstring)
| Icon (name : String.string) (iconClass : jsstring)
| Fragment (children : list Element)
| Arr (items : list Element)
| Skip.

(** [cond && element]. *)
Definition guarded (cond : bool) (e : Element) : Element :=
  if cond then e else Skip.

(** [Array.prototype.map] with the index passed to the callback. *)
Fixpoint mapi_from {A B : Type} (i : nat) (f : A -> nat -> B) (l : list A)
    : list B :=
  match l with
  | [] => []
  | a :: l' => f a i :: mapi_from (S i) f l'
  end.

Definition mapi {A B : Type} (f : A -> nat -> B) (l : list A) : list B :=
  mapi_from 0 f l.

Section View.

(** [date.toLocaleTimeString([], { hour: '2-digit', minute: '2-digit' })]
    depends on the locale of the browser. *)
Variable toLocaleTimeString : Date -> jsstring.

Definition toggle_button : Element :=
  El "button"
    (clickable
       (lit "bg-indigo-600 hover:bg-indigo-700 text-white rounded-full p-4 shadow-lg transition-all duration-300 flex items-center gap-2")
       ClickOpen)
    [ Icon "MessageCircle" (lit "w-6 h-6");
      El "span" (styled (lit "text-sm font-medium"))
        [Txt (lit "Chat with AI Tutor")] ].

Definition header (st : State) : Element :=
  El "div"
    (styled (lit "bg-indigo-600 text-white p-4 rounded-t-lg flex items-center justify-between"))
    [ El "div" (styled (lit "flex items-center gap-2"))
        [ Icon "Bot" (lit "w-6 h-6");
          El "h3" (styled (lit "font-semibold"))
            [Txt (lit "AI Learning Assistant")];
          guarded (negb (isApiKeySet st))
            (Icon "AlertCircle" (lit "w-5 h-5 text-yellow-300")) ];
      El "div" (styled (lit "flex items-center gap-2"))
        [ El "button"
            (clickable (lit "hover:bg-indigo-700 p-1 rounded") ClickMinimize)
            [Icon "MinusCircle" (lit "w-5 h-5")];
          El "button"
            (clickable (lit "hover:bg-indigo-700 p-1 rounded") ClickClose)
            [Icon "X" (lit "w-5 h-5")] ] ].

(** The callback of [messages.map]. *)
Definition bubble (msg : Message) (index : nat) : Element :=
  El "div"
    {| className :=
         lit "flex " ++
         (if isBot msg then lit "justify-start" else lit "justify-end");
       key := Some index; onClick := None; onSubmit := None;
       onChange := None; type := None; value := None; placeholder := None;
       disabled := None |}
    [ El "div"
        (styled
           (lit "max-w-[80%] p-3 rounded-lg " ++
            (if isBot msg then lit "bg-gray-100 text-gray-800"
             else lit "bg-indigo-600 text-white")))
        [ El "p" (styled (lit "text-sm whitespace-pre-wrap"))
            [Txt (text msg)];
          El "span" (styled (lit "text-xs opacity-75 mt-1 block"))
            [Txt (toLocaleTimeString (timestamp msg))] ] ].

Definition thinking : Element :=
  El "div" (styled (lit "flex justify-start"))
    [ El "div" (styled (lit "bg-gray-100 p-3 rounded-lg flex items-center gap-2"))
        [ Icon "Loader2" (lit "w-4 h-4 animate-spin");
          El "span" (styled (lit "text-sm text-gray-600"))
            [Txt (lit "Thinking...")] ] ].

Definition thread (st : State) : Element :=
  El "div" (styled (lit "flex-1 overflow-y-auto p-4 space-y-4"))
    [ Arr (mapi bubble (messages st));
      guarded (isLoading st) thinking ].

Definition form (st : State) : Element :=
  El "form"
    {| className := lit "border-t p-4 flex items-center gap-2";
       key := None; onClick := None; onSubmit := Some Submit;
       onChange := None; type := None; value := None; placeholder := None;
       disabled := None |}
    [ El "input"
        {| className :=
             lit "flex-1 border rounded-full px-4 py-2 focus:outline-none focus:ring-2 focus:ring-indigo-600";
           key := None; onClick := None; onSubmit := None;
           onChange := Some Change;
           type := Some (lit "text");
           value := Some (message st);
           placeholder :=
             Some (if isApiKeySet st then lit "Ask any question..."
                   else lit "API key required to send messages...");
           disabled := Some (isLoading st) |}
        [];
      El "button"
        {| className :=
             (if isLoading st || negb (isApiKeySet st) then lit "bg-gray-400"
              else lit "bg-indigo-600 hover:bg-indigo-700")
             ++ lit " text-white p-2 rounded-full transition-colors";
           key := None; onClick := None; onSubmit := None; onChange := None;
           type := Some (lit "submit");
           value := None; placeholder := None;
           disabled := Some (isLoading st || negb (isApiKeySet st)) |}
        [Icon "Send" (lit "w-5 h-5")] ].

Definition window (st : State) : Element :=
  El "div"
    (styled
       (lit "bg-white rounded-lg shadow-xl transition-all duration-300 "
        ++ (if isMinimized st then lit "h-14" else lit "h-[600px]")
        ++ lit " w-[380px] flex flex-col"))
    [ header st;
      guarded (negb (isMinimized st)) (Fragment [thread st; form st]) ].

(** What the component returns for the state [st]. *)
Definition render (st : State) : Element :=
  El "div" (styled (lit "fixed bottom-4 right-4 z-50"))
    [ guarded (negb (isOpen st)) toggle_button;
      guarded (isOpen st) (window st) ].

End View.

(** ** Reading a rendered tree *)

(** The text nodes, in document order. *)
Fixpoint texts (e : Element) : list jsstring :=
  match e with
  | El _ _ children => flat_map texts children
  | Txt s => [s]
  | Icon _ _ => []
  | Fragment children => flat_map texts children
  | Arr items => flat_map texts items
  | Skip => []
  end.

(** The icon components, in document order. *)
Fixpoint icons (e : Element) : list String.string :=
  match e with
  | El _ _ children => flat_map icons children
  | Txt _ => []
  | Icon name _ => [name]
  | Fragment children => flat_map icons children
  | Arr items => flat_map icons items
  | Skip => []
  end.

(** An event handler attached to an element. *)
Inductive Attached : Type :=
| AtClick (ev : Event)
| AtSubmit (ev : Event)
| AtChange (handler : jsstring -> Event).

Definition attached (p : Props) : list Attached :=
  match onClick p with Some ev => [AtClick ev] | None => [] end ++
  match onSubmit p with Some ev => [AtSubmit ev] | None => [] end ++
  match onChange p with Some h => [AtChange h] | None => [] end.

(** The handlers of the tree, in document order. *)
Fixpoint handlers (e : Element) : list Attached :=
  match e with
  | El _ props children => attached props ++ flat_map handlers children
  | Fragment children => flat_map handlers children
  | Arr items => flat_map handlers items
  | _ => []
  end.

(** The elements that carry a [disabled] prop, with its value. *)
Fixpoint switches (e : Element) : list (String.string * bool) :=
  match e with
  | El tag props children =>
      match disabled props with
      | Some b => [(tag, b)]
      | None => []
      end ++ flat_map switches children
  | Fragment children => flat_map switches children
  | Arr items => flat_map switches items
  | _ => []
  end.

(** The [key]s of the tree, in document order. *)
Fixpoint keys (e : Element) : list nat :=
  match e with
  | El _ props children =>
      match key props with
      | Some k => [k]
      | None => []
      end ++ flat_map keys children
  | Fragment children => flat_map keys children
  | Arr items => flat_map keys items
  | _ => []
  end.

(** The [className]s of the keyed rows, in document order. *)
Fixpoint row_classes (e : Element) : list jsstring :=
  match e with
  | El _ props children =>
      match key props with
      | Some _ => [className props]
      | None => []
      end ++ flat_map row_classes children
  | Fragment children => flat_map row_classes children
  | Arr items => flat_map row_classes items
  | _ => []
  end.

(** The [value] props of the tree, in document order. *)
Fixpoint values (e : Element) : list jsstring :=
  match e with
  | El _ props children =>
      match value props with
      | Some v => [v]
      | None => []
      end ++ flat_map values children
  | Fragment children => flat_map values children
  | Arr items => flat_map values items
  | _ => []
  end.

(** ** Relations used for the console *)

(** Two events that are the same, or are both the failure of the pending
    request, with any two errors. *)
Inductive same_but_error : Event -> Event -> Prop :=
| sbe_same ev : same_but_error ev ev
| sbe_rejected e1 e2 :
    same_but_error (Settle (OpenAI.Rejected e1)) (Settle (OpenAI.Rejected e2)).

(** Two worlds that differ at most in what is on the console. *)
Definition same_but_console (w1 w2 : World) : Prop :=
  hooks w1 = hooks w2 /\
  openai w1 = openai w2 /\
  network w1 = network w2 /\
  inflight w1 = inflight w2 /\
  clock w1 = clock w2 /\
  ticks w1 = ticks w2.

(** * Properties *)

(** ** [trim] and the guard *)

Lemma trimStart_nil (s : jsstring) :
  trimStart s = [] <-> forallb is_white_space s = true.
Proof.
  induction s as [|c s IH]; simpl.
  - tauto.
  - destruct (is_white_space c); simpl.
    + exact IH.
    + split; discriminate.
Qed.

Lemma trimStart_head (s : jsstring) (c : code_unit) (r : jsstring) :
  trimStart s = c :: r -> is_white_space c = false.
Proof.
  induction s as [|d s IH]; simpl; [discriminate|].
  destruct (is_white_space d) eqn:E; [exact IH|].
  intros H. injection H as -> _. exact E.
Qed.

Lemma trim_falsy (s : jsstring) :
  truthy (trim s) = false <-> forallb is_white_space s = true.
Proof.
  unfold trim, trimEnd. split.
  - intros H. apply trimStart_nil.
    destruct (trimStart s) as [|c r] eqn:E; [reflexivity|exfalso].
    pose proof (trimStart_head _ _ _ E) as Hc.
    destruct (rev (trimStart (rev (c :: r)))) as [|x y] eqn:R; [|discriminate H].
    apply (f_equal (@rev _)) in R. rewrite rev_involutive in R. simpl in R.
    apply trimStart_nil in R. rewrite forallb_forall in R.
    specialize (R c). rewrite Hc in R.
    assert (In c (rev r ++ [c])) as Hin by (apply in_or_app; right; now left).
    specialize (R Hin). discriminate R.
  - intros H. apply trimStart_nil in H. now rewrite H.
Qed.


Lemma ignored_iff (cl : State) :
  ignored cl = true <->
  forallb is_white_space (message cl) = true \/ isLoading cl = true.
Proof.
  unfold ignored. rewrite orb_true_iff, negb_true_iff, trim_falsy. tauto.
Qed.

Lemma accepted_not_loading (cl : State) :
  ignored cl = false -> isLoading cl = false.
Proof. unfold ignored. intros H. now apply orb_false_elim in H. Qed.

(** ** Equations of one step *)

Ltac handler_simpl :=
  unfold step, exec, dispatch, handleSendMessage, handleSendMessage_resume,
    on_catch; simpl.

Lemma submit_ignored (w : World) :
  ignored (hooks w) = true -> step w Submit = w.
Proof. intros H. handler_simpl. now rewrite H. Qed.

Lemma submit_unavailable (w : World) :
  ignored (hooks w) = false ->
  isApiKeySet (hooks w) = false ->
  step w Submit =
  {| hooks :=
       {| isOpen := isOpen (hooks w); isMinimized := isMinimized (hooks w);
          message := []; isLoading := isLoading (hooks w);
          messages := (messages (hooks w) ++ [userMessage_of w]) ++
            [{| text := KEY_MISSING_REPLY; isBot := true;
                timestamp := clock w (S (ticks w)) |}];
          isApiKeySet := isApiKeySet (hooks w) |};
     openai := openai w; network := network w; inflight := inflight w;
     console := console w; clock := clock w; ticks := S (S (ticks w)) |}.
Proof.
  intros H1 H2. handler_simpl. rewrite H1, H2. simpl.
  now rewrite ?H2.
Qed.

Lemma submit_available (w : World) (client : OpenAI.Client) :
  ignored (hooks w) = false ->
  isApiKeySet (hooks w) = true ->
  openai w = Some client ->
  step w Submit =
  {| hooks :=
       {| isOpen := isOpen (hooks w); isMinimized := isMinimized (hooks w);
          message := []; isLoading := true;
          messages := messages (hooks w) ++ [userMessage_of w];
          isApiKeySet := isApiKeySet (hooks w) |};
     openai := openai w;
     network := network w ++ [request (hooks w)];
     inflight := inflight w ++ [request (hooks w)];
     console := console w; clock := clock w; ticks := S (ticks w) |}.
Proof.
  intros H1 H2 H3. handler_simpl. rewrite H1, H2. simpl.
  unfold bind, readOpenai. simpl. rewrite H3. simpl.
  now rewrite ?H2, ?H3.
Qed.

(** ** The invariant holds in every reachable world *)

Lemma Inv_mount newOpenAI apiKey clk : Inv (mount newOpenAI apiKey clk).
Proof.
  unfold mount, init_openai.
  destruct apiKey as [key|]; [destruct (truthy key)|];
    try destruct (newOpenAI _); repeat split; reflexivity.
Qed.

Lemma Inv_step (w : World) (ev : Event) : Inv w -> Inv (step w ev).
Proof.
  intros (Hk & Hl & Hn). destruct ev; try (repeat split; assumption).
  - (* Submit *)
    destruct (ignored (hooks w)) eqn:G.
    + rewrite submit_ignored by exact G. now repeat split.
    + pose proof (accepted_not_loading _ G) as L.
      destruct (isApiKeySet (hooks w)) eqn:K.
      * destruct (openai w) as [client|] eqn:O; [|discriminate Hk].
        rewrite (submit_available w client G K O). repeat split; simpl.
        -- rewrite K, O. reflexivity.
        -- rewrite length_app, Hl, L. reflexivity.
        -- rewrite O. discriminate.
      * rewrite (submit_unavailable w G K).
        repeat split; simpl; first [congruence | assumption].
  - (* Settle *)
    handler_simpl. unfold bind, take_inflight.
    destruct (inflight w) as [|req rest] eqn:I; simpl.
    + repeat split; [assumption| |assumption]. now rewrite I.
    + assert (rest = []) as ->.
      { simpl in Hl. destruct (isLoading (hooks w)); [|discriminate Hl].
        destruct rest; [reflexivity|discriminate Hl]. }
      destruct settled as [completion|error]; simpl.
      * destruct (first_choice_content completion) as [error|[reply|]]; simpl;
          [| destruct (truthy reply) |]; simpl; repeat split;
          first [assumption | reflexivity].
      * repeat split; first [assumption | reflexivity].
Qed.

Lemma reachable_Inv (w : World) : reachable w -> Inv w.
Proof.
  induction 1 as [newOpenAI apiKey clk | w ev _ IH].
  - apply Inv_mount.
  - now apply Inv_step.
Qed.

Lemma reachable_run (evs : list Event) (w : World) :
  reachable w -> reachable (run evs w).
Proof.
  revert w. induction evs as [|ev evs IH]; intros w R; simpl.
  - exact R.
  - apply IH. now apply reach_step.
Qed.

(** ** The store only grows *)

Lemma step_appends (w : World) (ev : Event) :
  exists suffix,
    messages (hooks (step w ev)) = messages (hooks w) ++ suffix.
Proof.
  destruct ev; try (exists []; simpl; now rewrite app_nil_r).
  - (* Submit *)
    handler_simpl. destruct (ignored (hooks w)); simpl.
    + exists []. now rewrite app_nil_r.
    + destruct (isApiKeySet (hooks w)); simpl.
      * unfold bind, readOpenai. simpl.
        destruct (openai w); simpl; rewrite <- ?app_assoc; eexists; reflexivity.
      * rewrite <- app_assoc. eexists; reflexivity.
  - (* Settle *)
    handler_simpl. unfold bind, take_inflight.
    destruct (inflight w); simpl.
    + exists []. now rewrite app_nil_r.
    + destruct settled as [completion|error]; simpl.
      * destruct (first_choice_content completion) as [error|[reply|]]; simpl;
          [| destruct (truthy reply) |]; simpl;
          try (eexists; reflexivity); exists []; now rewrite app_nil_r.
      * eexists; reflexivity.
Qed.


(** ** Settling a promise *)

Lemma settle_idle (w : World) (settled : OpenAI.Settled) :
  inflight w = [] -> step w (Settle settled) = w.
Proof.
  intros I. handler_simpl. unfold bind, take_inflight. now rewrite I.
Qed.

Lemma settle_pending (w : World) req rest (settled : OpenAI.Settled) :
  inflight w = req :: rest ->
  step w (Settle settled) =
  exec (handleSendMessage_resume settled)
    {| hooks := hooks w; openai := openai w; network := network w;
       inflight := rest; console := console w; clock := clock w;
       ticks := ticks w |}.
Proof.
  intros I. unfold step, exec, dispatch, bind, take_inflight.
  now rewrite I.
Qed.

Lemma available_in_reachable (w : World) (client : OpenAI.Client) :
  reachable w -> openai w = Some client -> isApiKeySet (hooks w) = true.
Proof.
  intros R O. destruct (reachable_Inv w R) as (Hk & _). now rewrite Hk, O.
Qed.

Lemma idle_in_reachable (w : World) :
  reachable w -> isLoading (hooks w) = false -> inflight w = [].
Proof.
  intros R L. destruct (reachable_Inv w R) as (_ & Hl & _).
  rewrite L in Hl. now destruct (inflight w).
Qed.

(** ** The submission guard *)

(** C5: a submit action made while the draft is empty or consists of white
    space only, or while a send is in flight, changes nothing: the message
    store, the draft and the loading flag stay as they were and no request
    is issued; in fact the whole world is unchanged. *)
Theorem submit_guard_is_noop (w : World) :
  forallb is_white_space (message (hooks w)) = true \/
    isLoading (hooks w) = true ->
  let w' := step w Submit in
  messages (hooks w') = messages (hooks w) /\
  message (hooks w') = message (hooks w) /\
  isLoading (hooks w') = isLoading (hooks w) /\
  network w' = network w /\
  inflight w' = inflight w /\
  w' = w.
Proof.
  intros H w'. subst w'.
  rewrite submit_ignored by (now apply ignored_iff).
  repeat split.
Qed.

(** ** The outbound request *)

(** C2: an accepted submission made with the client available hands the
    client exactly one request: the system instruction, then every message
    of the store as it was before the submission, mapped to a role and
    content pair (assistant for bot messages, user otherwise), then the new
    user text as a user record; the model is gpt-3.5-turbo, the temperature
    0.7 and the token limit 500. *)
Theorem request_payload (w : World) (client : OpenAI.Client) :
  reachable w ->
  openai w = Some client ->
  ignored (hooks w) = false ->
  network (step w Submit) =
  network w ++
  [{| OpenAI.messages :=
        {| OpenAI.role := OpenAI.system; OpenAI.content := SYSTEM_PROMPT |}
        :: map (fun msg =>
                  {| OpenAI.role :=
                       if isBot msg then OpenAI.assistant else OpenAI.user;
                     OpenAI.content := text msg |})
               (messages (hooks w))
        ++ [{| OpenAI.role := OpenAI.user;
               OpenAI.content := message (hooks w) |}];
      OpenAI.model := lit "gpt-3.5-turbo";
      OpenAI.temperature := (7 # 10)%Q;
      OpenAI.max_tokens := 500%N |}].
Proof.
  intros R O G.
  rewrite (submit_available w client G (available_in_reachable w client R O) O).
  reflexivity.
Qed.

(** C9: an accepted submission stores the draft exactly as typed, white
    space included, as the text of the new user Message, and the same
    untrimmed string is the content of the last record of the request when
    one is sent. *)
Theorem raw_draft_is_kept (w : World) :
  ignored (hooks w) = false ->
  let w' := step w Submit in
  nth_error (messages (hooks w')) (List.length (messages (hooks w))) =
    Some {| text := message (hooks w); isBot := false;
            timestamp := clock w (ticks w) |} /\
  (forall client,
      isApiKeySet (hooks w) = true ->
      openai w = Some client ->
      exists params front,
        network w' = network w ++ [params] /\
        OpenAI.messages params =
        front ++ [{| OpenAI.role := OpenAI.user;
                     OpenAI.content := message (hooks w) |}]).
Proof.
  intros G w'. subst w'. split.
  - destruct (isApiKeySet (hooks w)) eqn:K.
    + handler_simpl. rewrite G, K. simpl. unfold bind, readOpenai. simpl.
      destruct (openai w); simpl; rewrite <- ?app_assoc;
        rewrite nth_error_app2, Nat.sub_diag by lia; reflexivity.
    + rewrite (submit_unavailable w G K). simpl. rewrite <- app_assoc.
      rewrite nth_error_app2, Nat.sub_diag by lia. reflexivity.
  - intros client K O. rewrite (submit_available w client G K O). simpl.
    exists (request (hooks w)).
    exists ({| OpenAI.role := OpenAI.system; OpenAI.content := SYSTEM_PROMPT |}
            :: map toParam (messages (hooks w))).
    split; reflexivity.
Qed.

(** ** No credential *)

(** C3: when the client is unavailable, an accepted submission attempts no
    network call (none has ever been made, and none is pending) and the
    store gains the user Message immediately followed by one assistant
    Message carrying the fixed configuration warning. *)
Theorem unavailable_short_circuit (w : World) :
  reachable w ->
  openai w = None ->
  ignored (hooks w) = false ->
  let w' := step w Submit in
  network w' = network w /\
  network w' = [] /\
  inflight w' = [] /\
  isLoading (hooks w') = false /\
  messages (hooks w') =
    messages (hooks w) ++
    [ {| text := message (hooks w); isBot := false;
         timestamp := clock w (ticks w) |};
      {| text := KEY_MISSING_REPLY; isBot := true;
         timestamp := clock w (S (ticks w)) |} ].
Proof.
  intros R O G w'. subst w'.
  destruct (reachable_Inv w R) as (Hk & _ & Hn). rewrite O in Hk.
  pose proof (accepted_not_loading _ G) as L.
  rewrite (submit_unavailable w G Hk). simpl.
  rewrite (idle_in_reachable w R L), (Hn O), L, <- app_assoc.
  repeat split.
Qed.

(** ** Failed and empty responses *)

(** C4: however a pending send fails, its settlement appends exactly one
    assistant Message whose text is the fixed apology; the error itself goes
    to the console only, and the React state that results is the same for
    every error.  A fulfilled response without a [choices] array ends in the
    same [catch] clause. *)
Theorem failed_send_yields_fallback (w : World) req rest (error : Thrown) :
  inflight w = req :: rest ->
  let w' := step w (Settle (OpenAI.Rejected error)) in
  messages (hooks w') =
    messages (hooks w) ++
    [{| text := FALLBACK; isBot := true; timestamp := clock w (ticks w) |}] /\
  console w' =
    console w ++
    [{| label := lit "Error getting AI response:"; logged := error |}] /\
  isLoading (hooks w') = false /\
  (forall error',
      hooks (step w (Settle (OpenAI.Rejected error'))) = hooks w') /\
  (forall completion,
      OpenAI.Completion.choices completion = None ->
      hooks (step w (Settle (OpenAI.Fulfilled completion))) = hooks w').
Proof.
  intros I w'. subst w'. rewrite (settle_pending w req rest _ I).
  repeat split.
  - intros error'. now rewrite (settle_pending w req rest _ I).
  - intros completion C. rewrite (settle_pending w req rest _ I).
    unfold exec, handleSendMessage_resume, first_choice_content.
    now rewrite C.
Qed.

(** C7: when the send succeeds but the first choice carries no content
    (no choice, no message, a null or an empty content), the turn appends
    the user Message and nothing else: no fallback, nothing on the console,
    and the loading flag is cleared. *)
Theorem empty_reply_is_silent (w : World) (client : OpenAI.Client)
    (completion : OpenAI.Completion.ChatCompletion)
    (botResponse : option jsstring) :
  reachable w ->
  openai w = Some client ->
  ignored (hooks w) = false ->
  first_choice_content completion = inr botResponse ->
  truthy_opt botResponse = false ->
  let w1 := step w Submit in
  let w2 := step w1 (Settle (OpenAI.Fulfilled completion)) in
  messages (hooks w2) =
    messages (hooks w) ++
    [{| text := message (hooks w); isBot := false;
        timestamp := clock w (ticks w) |}] /\
  messages (hooks w2) = messages (hooks w1) /\
  console w2 = console w /\
  isLoading (hooks w2) = false /\
  inflight w2 = [].
Proof.
  intros R O G F T w1 w2. subst w2 w1.
  pose proof (available_in_reachable w client R O) as K.
  pose proof (idle_in_reachable w R (accepted_not_loading _ G)) as I.
  rewrite (submit_available w client G K O).
  rewrite (settle_pending _ (request (hooks w)) [] _)
    by (simpl; now rewrite I).
  unfold exec, handleSendMessage_resume. rewrite F.
  destruct botResponse as [reply|]; simpl in *.
  - rewrite T. simpl. repeat split.
  - repeat split.
Qed.

(** ** Visibility *)

Lemma same_conversation_refl (w : World) : same_conversation w w.
Proof. repeat split. Qed.

Lemma same_conversation_trans (w1 w2 w3 : World) :
  same_conversation w1 w2 -> same_conversation w2 w3 ->
  same_conversation w1 w3.
Proof.
  unfold same_conversation. intros H1 H2.
  decompose [and] H1. decompose [and] H2. repeat split; congruence.
Qed.

Lemma visibility_keeps_conversation (w : World) (ev : Event) :
  is_visibility ev = true -> same_conversation (step w ev) w.
Proof. destruct ev; try discriminate; intros _; repeat split. Qed.

Lemma step_same_conversation (w1 w2 : World) (ev : Event) :
  same_conversation w1 w2 -> same_conversation (step w1 ev) (step w2 ev).
Proof.
  destruct w1 as [[o1 m1 d1 l1 ms1 k1] h1 n1 i1 c1 clk1 t1].
  destruct w2 as [[o2 m2 d2 l2 ms2 k2] h2 n2 i2 c2 clk2 t2].
  unfold same_conversation. simpl.
  intros (-> & -> & -> & -> & -> & -> & -> & -> & -> & ->).
  destruct ev; try (repeat split; reflexivity).
  - (* Submit *)
    handler_simpl. unfold ignored. simpl.
    destruct (negb (truthy (trim d2)) || l2); simpl; [repeat split|].
    destruct k2; simpl; [|repeat split].
    unfold bind, readOpenai. simpl. destruct h2; simpl; repeat split.
  - (* Settle *)
    handler_simpl. unfold bind, take_inflight. simpl.
    destruct i2; simpl; [repeat split|].
    destruct settled as [completion|error]; simpl; [|repeat split].
    destruct (first_choice_content completion) as [error|[reply|]]; simpl;
      [| destruct (truthy reply) |]; simpl; repeat split.
Qed.

Lemma run_without_visibility (evs : list Event) (w1 w2 : World) :
  same_conversation w1 w2 ->
  same_conversation
    (run evs w1)
    (run (filter (fun ev => negb (is_visibility ev)) evs) w2).
Proof.
  revert w1 w2. induction evs as [|ev evs IH]; intros w1 w2 S; simpl.
  - exact S.
  - destruct (is_visibility ev) eqn:V; simpl.
    + apply IH.
      apply (same_conversation_trans _ w1); [|exact S].
      now apply visibility_keeps_conversation.
    + apply IH. now apply step_same_conversation.
Qed.

(** C8: closing the widget leaves the message store as it is, and so do
    opening and minimizing; after closing and reopening the store is the one
    from before; and along any sequence of events the store is the one that
    the same sequence without its visibility clicks produces. *)
Theorem visibility_keeps_store (w : World) :
  messages (hooks (step w ClickClose)) = messages (hooks w) /\
  messages (hooks (step w ClickOpen)) = messages (hooks w) /\
  messages (hooks (step w ClickMinimize)) = messages (hooks w) /\
  messages (hooks (run [ClickClose; ClickOpen] w)) = messages (hooks w) /\
  isOpen (hooks (step w ClickClose)) = false /\
  isOpen (hooks (step w ClickOpen)) = true /\
  forall evs,
    messages (hooks (run evs w)) =
    messages (hooks (run (filter (fun ev => negb (is_visibility ev)) evs) w)).
Proof.
  repeat split. intros evs.
  apply (run_without_visibility evs w w (same_conversation_refl w)).
Qed.

(** ** The seeded record *)


(** ** A whole turn *)

(** C1, as the code has it: an accepted submission (draft not blank, no
    send in flight) appends exactly one user Message, and the turn appends
    at most one assistant Message after it: the configuration warning, at
    once, when the client is unavailable; the fallback when the send fails;
    the reply when the first choice has a non-empty content; and none when
    it has no content. *)
Theorem turn_outcome (w : World) (settled : OpenAI.Settled) :
  reachable w ->
  ignored (hooks w) = false ->
  let w1 := step w Submit in
  let w2 := step w1 (Settle settled) in
  let u := {| text := message (hooks w); isBot := false;
              timestamp := clock w (ticks w) |} in
  let bot (s : jsstring) :=
    {| text := s; isBot := true; timestamp := clock w (S (ticks w)) |} in
  messages (hooks w2) =
    messages (hooks w) ++ u ::
    match openai w with
    | None => [bot KEY_MISSING_REPLY]
    | Some _ =>
        match settled with
        | OpenAI.Rejected _ => [bot FALLBACK]
        | OpenAI.Fulfilled completion =>
            match first_choice_content completion with
            | inl _ => [bot FALLBACK]
            | inr (Some reply) => if truthy reply then [bot reply] else []
            | inr None => []
            end
        end
    end /\
  (openai w = None -> messages (hooks w1) = messages (hooks w2)) /\
  humans (messages (hooks w2)) = humans (messages (hooks w)) + 1 /\
  bots (messages (hooks w2)) <= bots (messages (hooks w)) + 1.
Proof.
  intros R G w1 w2 u bot.
  pose proof (idle_in_reachable w R (accepted_not_loading _ G)) as I.
  assert (w2 = step w1 (Settle settled)) as E2 by reflexivity.
  clearbody w2. subst w1.
  destruct (openai w) as [client|] eqn:O.
  - pose proof (available_in_reachable w client R O) as K.
    rewrite (submit_available w client G K O) in E2.
    rewrite (settle_pending _ (request (hooks w)) [] _) in E2
      by (simpl; now rewrite I).
    unfold exec, handleSendMessage_resume, on_catch in E2.
    unfold humans, bots.
    destruct settled as [completion|error];
      [destruct (first_choice_content completion) as [error|[reply|]];
       [| destruct (truthy reply) eqn:T |] |];
      simpl in E2; rewrite ?T in E2; simpl in E2; subst w2; simpl;
      rewrite <- ?app_assoc; simpl;
      (split; [reflexivity|]); (split; [discriminate|]);
      rewrite !filter_app, !length_app; simpl; lia.
  - destruct (reachable_Inv w R) as (Hk & _). rewrite O in Hk. simpl in Hk.
    rewrite (submit_unavailable w G Hk) in E2.
    rewrite settle_idle in E2 by (simpl; exact I).
    rewrite (submit_unavailable w G Hk). subst w2. simpl.
    rewrite <- app_assoc. simpl.
    split; [reflexivity|]. split; [reflexivity|].
    unfold humans, bots. rewrite !filter_app, !length_app. simpl. lia.
Qed.


(** ** Where the statements of the specification fail *)

(** C1 as stated fails: with a credential configured, a response whose
    first choice has a null content ends the turn with the user Message
    only; no assistant Message follows it. *)
Lemma turn_without_reply :
  let w := step demo_keyed (Change (lit "What is 2+2?")) in
  let w2 := run [Submit; Settle (reply_with None)] w in
  ignored (hooks w) = false /\
  messages (hooks w2) = messages (hooks w) ++ [userMessage_of w] /\
  bots (messages (hooks w2)) = bots (messages (hooks w)) /\
  inflight w2 = [] /\
  ~ (exists a, messages (hooks w2) =
               messages (hooks w) ++ [userMessage_of w; a]).
Proof.
  intros w w2. repeat split.
  intros [a H]. apply (f_equal (@List.length _)) in H.
  vm_compute in H. discriminate H.
Qed.


(** ** The theorems at concrete worlds *)

Lemma reachable_after (evs : list Event) newOpenAI apiKey clk :
  reachable (run evs (mount newOpenAI apiKey clk)).
Proof. apply reachable_run, reach_mount. Qed.

Lemma submit_guard_is_noop_witness :
  let blank := step demo_keyed (Change [32; 160; 12288]%N) in
  let busy := run [Change (lit "hi"); Submit; Change (lit "again")] demo_keyed in
  (isLoading (hooks blank) = false /\ step blank Submit = blank) /\
  (isLoading (hooks busy) = true /\ step busy Submit = busy).
Proof.
  intros blank busy. split; (split; [reflexivity|]).
  - apply (submit_guard_is_noop blank). left. reflexivity.
  - apply (submit_guard_is_noop busy). right. reflexivity.
Defined.

Lemma request_payload_witness :
  let w := run [Change (lit "hi"); Submit;
                Settle (reply_with (Some (lit "hello")));
                Change (lit "What is 2+2?")] demo_keyed in
  ignored (hooks w) = false /\
  map (fun params => map OpenAI.role (OpenAI.messages params))
      (network (step w Submit)) =
    [ [OpenAI.system; OpenAI.assistant; OpenAI.user];
      [OpenAI.system; OpenAI.assistant; OpenAI.user; OpenAI.assistant;
       OpenAI.user] ].
Proof.
  intros w. split; [reflexivity|].
  rewrite (request_payload w
             {| OpenAI.options :=
                  {| OpenAI.apiKey := lit "sk-demo";
                     OpenAI.dangerouslyAllowBrowser := true |} |}
             (reachable_after _ _ _ _) eq_refl eq_refl).
  reflexivity.
Defined.

Lemma raw_draft_is_kept_witness :
  let w := step demo_keyed (Change (lit "  hi ")) in
  trim (message (hooks w)) = lit "hi" /\
  nth_error (messages (hooks (step w Submit))) 1 =
    Some {| text := lit "  hi "; isBot := false;
            timestamp := tick_clock 1 |}.
Proof.
  intros w. split; [reflexivity|].
  destruct (raw_draft_is_kept w eq_refl) as [H _].
  exact H.
Defined.

Lemma unavailable_short_circuit_witness :
  let w := step demo_unkeyed (Change (lit "anything")) in
  openai w = None /\
  network (step w Submit) = [] /\
  map text (messages (hooks (step w Submit))) =
    [KEY_MISSING_SEED; lit "anything"; KEY_MISSING_REPLY].
Proof.
  intros w. split; [reflexivity|].
  destruct (unavailable_short_circuit w
              (reachable_after [Change (lit "anything")] newOpenAI_ok None
                 tick_clock)
              eq_refl eq_refl) as (_ & Hn & _ & _ & Hm).
  split; [exact Hn|]. rewrite Hm. reflexivity.
Defined.

Lemma failed_send_yields_fallback_witness :
  let w := run [Change (lit "hi"); Submit] demo_keyed in
  map text (messages (hooks (step w (Settle (OpenAI.Rejected
      (APIStatusError 500 (lit "Internal Server Error"))))))) =
    [GREETING; lit "hi"; FALLBACK].
Proof.
  intros w.
  destruct (failed_send_yields_fallback w (request (hooks (step demo_keyed (Change (lit "hi"))))) []
              (APIStatusError 500 (lit "Internal Server Error")))
    as (Hm & _).
  - reflexivity.
  - rewrite Hm. reflexivity.
Defined.

Lemma empty_reply_is_silent_witness :
  let w := step demo_keyed (Change (lit "What is 2+2?")) in
  map text (messages (hooks (run [Submit; Settle (reply_with (Some []))] w))) =
    [GREETING; lit "What is 2+2?"].
Proof.
  intros w.
  destruct (empty_reply_is_silent w
              {| OpenAI.options :=
                   {| OpenAI.apiKey := lit "sk-demo";
                      OpenAI.dangerouslyAllowBrowser := true |} |}
              {| OpenAI.Completion.choices :=
                   Some [{| OpenAI.Completion.message :=
                              Some {| OpenAI.Completion.content := Some [] |}
                         |}] |}
              (Some [])
              (reachable_after [Change (lit "What is 2+2?")] newOpenAI_ok
                 (Some (lit "sk-demo")) tick_clock)
              eq_refl eq_refl eq_refl eq_refl) as (Hm & _).
  change (run [Submit; Settle (reply_with (Some []))] w)
    with (step (step w Submit) (Settle (reply_with (Some [])))).
  unfold reply_with. rewrite Hm. reflexivity.
Defined.


Lemma turn_outcome_witness :
  let w := step demo_keyed (Change (lit "What is 2+2?")) in
  map text (messages (hooks
    (run [Submit; Settle (reply_with (Some (lit "4")))] w))) =
    [GREETING; lit "What is 2+2?"; lit "4"].
Proof.
  intros w.
  destruct (turn_outcome w (reply_with (Some (lit "4")))
              (reachable_after [Change (lit "What is 2+2?")] newOpenAI_ok
                 (Some (lit "sk-demo")) tick_clock)
              eq_refl) as (Hm & _).
  change (run [Submit; Settle (reply_with (Some (lit "4")))] w)
    with (step (step w Submit) (Settle (reply_with (Some (lit "4"))))).
  rewrite Hm. reflexivity.
Defined.


(** * Further properties of the handlers *)

(** ** Case analysis of one event *)

Lemma step_effect (w : World) (ev : Event) :
  Inv w ->
  effect w (step w ev) /\
  openai (step w ev) = openai w /\
  clock (step w ev) = clock w.
Proof.
  intros (Hk & Hl & Hn). destruct ev;
    try (split; [apply eff_quiet; reflexivity | split; reflexivity]).
  - (* Submit *)
    destruct (ignored (hooks w)) eqn:G.
    + rewrite submit_ignored by exact G.
      split; [apply eff_quiet; reflexivity | split; reflexivity].
    + pose proof (accepted_not_loading _ G) as L.
      assert (inflight w = []) as I.
      { rewrite L in Hl. now destruct (inflight w). }
      destruct (isApiKeySet (hooks w)) eqn:K.
      * destruct (openai w) as [client|] eqn:O; [|discriminate Hk].
        rewrite (submit_available w client G K O).
        split; [|split; simpl; congruence].
        apply (eff_sent _ _ client); simpl; try congruence.
        now rewrite I.
      * assert (openai w = None) as O.
        { destruct (openai w); [discriminate Hk|reflexivity]. }
        rewrite (submit_unavailable w G K).
        split; [|split; reflexivity].
        apply eff_refused; simpl; try congruence.
        now rewrite <- app_assoc.
  - (* Settle *)
    destruct (inflight w) as [|req rest] eqn:I.
    + rewrite settle_idle by exact I.
      split; [apply eff_quiet; reflexivity | split; reflexivity].
    + assert (isLoading (hooks w) = true /\ rest = []) as [L ->].
      { simpl in Hl. destruct (isLoading (hooks w)); [|discriminate Hl].
        destruct rest; [now split|discriminate Hl]. }
      rewrite (settle_pending w req [] settled I).
      unfold exec, handleSendMessage_resume, on_catch.
      destruct settled as [completion|error];
        [destruct (first_choice_content completion) as [error|[reply|]];
         [| destruct (truthy reply) |] |]; simpl;
        (split; [|split; reflexivity]);
        first [ apply eff_silent; simpl; congruence
              | eapply eff_answered; simpl; first [reflexivity | congruence] ].
Qed.

Lemma mount_shape newOpenAI apiKey clk :
  let w0 := mount newOpenAI apiKey clk in
  messages (hooks w0) =
    [{| text := if Boolean (openai w0) then GREETING else KEY_MISSING_SEED;
        isBot := true; timestamp := clk 0 |}] /\
  ticks w0 = 1 /\
  network w0 = [] /\
  inflight w0 = [] /\
  isLoading (hooks w0) = false /\
  clock w0 = clk.
Proof.
  unfold mount, init_openai.
  destruct apiKey as [key|]; [destruct (truthy key)|];
    try destruct (newOpenAI _); repeat split; reflexivity.
Qed.

Lemma step_appends_few (w : World) (ev : Event) :
  exists suffix,
    messages (hooks (step w ev)) = messages (hooks w) ++ suffix /\
    List.length suffix <= 2.
Proof.
  destruct ev;
    try (exists []; simpl; rewrite app_nil_r; split; [reflexivity|lia]).
  - (* Submit *)
    handler_simpl. destruct (ignored (hooks w)); simpl.
    + exists []. rewrite app_nil_r. split; [reflexivity|simpl; lia].
    + destruct (isApiKeySet (hooks w)); simpl.
      * unfold bind, readOpenai. simpl.
        destruct (openai w); simpl; rewrite <- ?app_assoc;
          eexists; (split; [reflexivity|simpl; lia]).
      * rewrite <- app_assoc. eexists; split; [reflexivity|simpl; lia].
  - (* Settle *)
    handler_simpl. unfold bind, take_inflight.
    destruct (inflight w); simpl.
    + exists []. rewrite app_nil_r. split; [reflexivity|simpl; lia].
    + destruct settled as [completion|error]; simpl.
      * destruct (first_choice_content completion) as [error|[reply|]]; simpl;
          [| destruct (truthy reply) |]; simpl;
          first [ exists []; rewrite app_nil_r; split; [reflexivity|simpl; lia]
                | eexists; split; [reflexivity|simpl; lia] ].
      * eexists; split; [reflexivity|simpl; lia].
Qed.

Lemma step_keeps_config (w : World) (ev : Event) :
  openai (step w ev) = openai w /\
  isApiKeySet (hooks (step w ev)) = isApiKeySet (hooks w) /\
  clock (step w ev) = clock w.
Proof.
  destruct ev; try (repeat split; reflexivity).
  - handler_simpl. destruct (ignored (hooks w)); simpl; [repeat split|].
    destruct (isApiKeySet (hooks w)) eqn:K; simpl;
      [|repeat split; simpl; congruence].
    unfold bind, readOpenai. simpl.
    destruct (openai w) eqn:O; simpl; repeat split; simpl; congruence.
  - handler_simpl. unfold bind, take_inflight.
    destruct (inflight w); simpl; [repeat split|].
    destruct settled as [completion|error]; simpl; [|repeat split].
    destruct (first_choice_content completion) as [error|[reply|]]; simpl;
      [| destruct (truthy reply) |]; simpl; repeat split.
Qed.

Lemma accepted_clears_draft (w : World) :
  ignored (hooks w) = false -> message (hooks (step w Submit)) = [].
Proof.
  intros G. handler_simpl. rewrite G. simpl.
  destruct (isApiKeySet (hooks w)); simpl; [|reflexivity].
  unfold bind, readOpenai. simpl. destruct (openai w); reflexivity.
Qed.

Lemma submit_keeps_visibility (w : World) :
  isOpen (hooks (step w Submit)) = isOpen (hooks w) /\
  isMinimized (hooks (step w Submit)) = isMinimized (hooks w).
Proof.
  handler_simpl. destruct (ignored (hooks w)); simpl; [now split|].
  destruct (isApiKeySet (hooks w)); simpl; [|now split].
  unfold bind, readOpenai. simpl. destruct (openai w); now split.
Qed.

Lemma not_ignored (cl : State) :
  forallb is_white_space (message cl) = false ->
  isLoading cl = false ->
  ignored cl = false.
Proof.
  intros B L. destruct (ignored cl) eqn:G; [|reflexivity].
  apply ignored_iff in G. destruct G; congruence.
Qed.

(** ** The store only grows *)

(** X1: no event sequence removes, reorders or rewrites a stored Message:
    the store afterwards is the store before followed by at most two new
    Messages per event, so a Message keeps its index for good. *)
Theorem stored_messages_stay (w : World) (evs : list Event) :
  (exists suffix,
      messages (hooks (run evs w)) = messages (hooks w) ++ suffix /\
      List.length suffix <= 2 * List.length evs) /\
  (forall i m,
      nth_error (messages (hooks w)) i = Some m ->
      nth_error (messages (hooks (run evs w))) i = Some m).
Proof.
  assert (exists suffix,
             messages (hooks (run evs w)) = messages (hooks w) ++ suffix /\
             List.length suffix <= 2 * List.length evs) as H.
  { revert w. induction evs as [|ev evs IH]; intros w; simpl run.
    - exists []. rewrite app_nil_r. split; [reflexivity|simpl; lia].
    - destruct (IH (step w ev)) as (s2 & E2 & L2).
      destruct (step_appends_few w ev) as (s1 & E1 & L1).
      exists (s1 ++ s2). split.
      + now rewrite E2, E1, app_assoc.
      + rewrite length_app. simpl List.length. lia. }
  split; [exact H|].
  destruct H as (suffix & E & _). intros i m Hi. rewrite E.
  rewrite nth_error_app1; [exact Hi|].
  apply nth_error_Some. congruence.
Qed.

(** ** One request at a time *)


(** ** The configuration is fixed *)

Lemma run_keeps_config (evs : list Event) (w : World) :
  openai (run evs w) = openai w /\
  isApiKeySet (hooks (run evs w)) = isApiKeySet (hooks w) /\
  clock (run evs w) = clock w.
Proof.
  revert w. induction evs as [|ev evs IH]; intros w; simpl run.
  - repeat split.
  - destruct (IH (step w ev)) as (H1 & H2 & H3).
    destruct (step_keeps_config w ev) as (K1 & K2 & K3).
    repeat split; congruence.
Qed.

(** X3: no event changes the client handle or the [isApiKeySet] cell
    ([setIsApiKeySet] is never called), so the placeholder, the alert icon
    and the branch a submission takes are those of the mount for good; the
    clock is never replaced either. *)
Theorem configuration_is_fixed (w : World) (evs : list Event) :
  openai (run evs w) = openai w /\
  isApiKeySet (hooks (run evs w)) = isApiKeySet (hooks w) /\
  clock (run evs w) = clock w.
Proof. exact (run_keeps_config evs w). Qed.


(** ** Submitting twice *)


(** X6: while a request is pending every submission is ignored, whatever
    the draft; once the request has settled, in whichever way, the next
    draft that is not blank is accepted again. *)
Theorem settlement_unblocks (w : World) (client : OpenAI.Client)
    (settled : OpenAI.Settled) (draft : jsstring) :
  reachable w ->
  openai w = Some client ->
  ignored (hooks w) = false ->
  forallb is_white_space draft = false ->
  ignored (hooks (run [Submit; Change draft] w)) = true /\
  ignored (hooks (run [Submit; Settle settled; Change draft] w)) = false.
Proof.
  intros R O G B.
  pose proof (available_in_reachable w client R O) as K.
  pose proof (idle_in_reachable w R (accepted_not_loading _ G)) as I.
  simpl run. rewrite (submit_available w client G K O). split.
  - apply ignored_iff. right. reflexivity.
  - rewrite (settle_pending _ (request (hooks w)) [] _)
      by (simpl; now rewrite I).
    apply not_ignored.
    + unfold exec, handleSendMessage_resume, on_catch.
      destruct settled as [completion|error];
        [destruct (first_choice_content completion) as [error|[reply|]];
         [| destruct (truthy reply) |] |]; simpl; exact B.
    + unfold exec, handleSendMessage_resume, on_catch.
      destruct settled as [completion|error];
        [destruct (first_choice_content completion) as [error|[reply|]];
         [| destruct (truthy reply) |] |]; reflexivity.
Qed.

(** ** The shape of the store *)




(** ** The request log *)

Lemma request_messages (cl : State) :
  OpenAI.messages (request cl) =
  (system_record :: map toParam (messages cl)) ++
  [{| OpenAI.role := OpenAI.user; OpenAI.content := message cl |}].
Proof. reflexivity. Qed.

Lemma final_content_request (cl : State) :
  final_content (request cl) = message cl.
Proof.
  unfold final_content. rewrite request_messages, map_app. apply last_last.
Qed.

(** X8: with a client, the requests issued so far and the user Messages of
    the store correspond one to one, in order: the last record of the n-th
    request carries the text of the n-th user Message. *)
Theorem requests_match_user_messages (w : World) (client : OpenAI.Client) :
  reachable w ->
  openai w = Some client ->
  map final_content (network w) =
  map text (filter (fun m => negb (isBot m)) (messages (hooks w))).
Proof.
  intros R. induction R as [newOpenAI apiKey clk | w ev R IH].
  - destruct (mount_shape newOpenAI apiKey clk) as (M & _ & N & _).
    intros _. now rewrite M, N.
  - destruct (step_effect w ev (reachable_Inv w R)) as (E & O & _).
    rewrite O. intros H. specialize (IH H).
    destruct E as [Em _ En _ _ | Ow _ _ _ _ _ _ | c _ _ Em _ En _ _
                  | r _ Em _ En _ _ | _ Em _ En _ _];
      try congruence; rewrite Em, En.
    + rewrite filter_app, !map_app, IH. simpl.
      now rewrite final_content_request.
    + rewrite filter_app, map_app, IH. simpl. now rewrite app_nil_r.
Qed.


Lemma greeting_stays_first (w : World) (client : OpenAI.Client) :
  reachable w ->
  openai w = Some client ->
  exists t tail,
    messages (hooks w) =
    {| text := GREETING; isBot := true; timestamp := t |} :: tail.
Proof.
  intros R. induction R as [newOpenAI apiKey clk | w ev R IH].
  - destruct (mount_shape newOpenAI apiKey clk) as (M & _).
    intros O. rewrite O in M. rewrite M. now eexists _, _.
  - destruct (step_keeps_config w ev) as (O & _).
    destruct (step_appends w ev) as [suffix E].
    rewrite O, E. intros H.
    destruct (IH H) as (t & tail & ->).
    now exists t, (tail ++ suffix).
Qed.

(** X10: every request the widget has issued opens with the system
    instruction followed by the seeded greeting as an assistant record,
    holds no other system record, and carries the fixed model, temperature
    and token limit. *)
Theorem every_request_is_well_formed (w : World) :
  reachable w ->
  Forall (fun params =>
            (exists body,
                OpenAI.messages params =
                  system_record ::
                  {| OpenAI.role := OpenAI.assistant;
                     OpenAI.content := GREETING |} :: body /\
                Forall (fun r => OpenAI.role r <> OpenAI.system) body) /\
            OpenAI.model params = MODEL /\
            OpenAI.temperature params = TEMPERATURE /\
            OpenAI.max_tokens params = MAX_TOKENS)
         (network w).
Proof.
  intros R. induction R as [newOpenAI apiKey clk | w ev R IH].
  - destruct (mount_shape newOpenAI apiKey clk) as (_ & _ & N & _).
    rewrite N. constructor.
  - destruct (step_effect w ev (reachable_Inv w R)) as (E & _).
    destruct E as [_ _ En _ _ | _ _ _ _ En _ _ | c Oc _ _ _ En _ _
                  | r _ _ _ En _ _ | _ _ _ En _ _];
      rewrite En; try exact IH.
    apply Forall_app. split; [exact IH|]. constructor; [|constructor].
    destruct (greeting_stays_first w c R Oc) as (t & tail & M).
    split; [|repeat split].
    exists (map toParam tail ++
            [{| OpenAI.role := OpenAI.user;
                OpenAI.content := message (hooks w) |}]).
    split.
    + rewrite request_messages, M. reflexivity.
    + apply Forall_app. split.
      * apply Forall_map. apply Forall_forall. intros m _.
        unfold toParam. simpl. destruct (isBot m); discriminate.
      * constructor; [discriminate|constructor].
Qed.

(** ** Time stamps *)

(** X11: each stored Message carries its own clock reading, taken in
    store order: the n-th Message is stamped with the n-th answer of
    [new Date()].  With a clock that never runs backwards the store is
    therefore in chronological order. *)
Theorem store_is_chronological (w : World) :
  reachable w ->
  map timestamp (messages (hooks w)) =
    map (clock w) (seq 0 (List.length (messages (hooks w)))) /\
  ((forall n m, n <= m -> (clock w n <= clock w m)%Z) ->
   forall i j a b,
     i <= j ->
     nth_error (messages (hooks w)) i = Some a ->
     nth_error (messages (hooks w)) j = Some b ->
     (timestamp a <= timestamp b)%Z).
Proof.
  intros R.
  assert (ticks w = List.length (messages (hooks w)) /\
          map timestamp (messages (hooks w)) =
            map (clock w) (seq 0 (List.length (messages (hooks w))))) as [_ H].
  { induction R as [newOpenAI apiKey clk | w ev R [IHt IHm]].
    - destruct (mount_shape newOpenAI apiKey clk) as (M & T & _ & _ & _ & C).
      rewrite M, T, C. now split.
    - destruct (step_effect w ev (reachable_Inv w R)) as (E & _ & C).
      rewrite C.
      destruct E as [Em _ _ _ Et | _ _ Em _ _ _ Et | c _ _ Em _ _ _ Et
                    | r _ Em _ _ _ Et | _ Em _ _ _ Et];
        rewrite Em, Et; try (now split);
        rewrite !length_app, map_app, IHm; simpl List.length.
      + split; [lia|].
        replace (List.length (messages (hooks w)) + 2)
          with (S (S (List.length (messages (hooks w))))) by lia.
        rewrite !seq_S, !map_app, <- app_assoc. simpl. now rewrite IHt.
      + split; [lia|].
        replace (List.length (messages (hooks w)) + 1)
          with (S (List.length (messages (hooks w)))) by lia.
        rewrite seq_S, map_app. simpl. now rewrite IHt.
      + split; [lia|].
        replace (List.length (messages (hooks w)) + 1)
          with (S (List.length (messages (hooks w)))) by lia.
        rewrite seq_S, map_app. simpl. now rewrite IHt. }
  split; [exact H|].
  assert (forall i a, nth_error (messages (hooks w)) i = Some a ->
                      timestamp a = clock w i) as Stamp.
  { intros i a Hi.
    assert (i < List.length (messages (hooks w))) as Lt
      by (apply nth_error_Some; congruence).
    apply (f_equal (fun l => nth_error l i)) in H.
    rewrite !nth_error_map, Hi, nth_error_seq in H.
    apply Nat.ltb_lt in Lt. rewrite Lt in H. simpl in H.
    now injection H. }
  intros Mono i j a b Le Hi Hj.
  rewrite (Stamp i a Hi), (Stamp j b Hj). now apply Mono.
Qed.

(** * Properties of the rendered tree *)

(** ** The rows of the thread *)

Lemma rows_texts fmt (l : list Message) (i : nat) :
  flat_map texts (mapi_from i (bubble fmt) l) =
  flat_map (fun m => [text m; fmt (timestamp m)]) l.
Proof.
  revert i. induction l as [|m l IH]; intros i; [reflexivity|].
  simpl mapi_from. simpl flat_map. now rewrite IH.
Qed.

Lemma rows_icons fmt (l : list Message) (i : nat) :
  flat_map icons (mapi_from i (bubble fmt) l) = [].
Proof.
  revert i. induction l as [|m l IH]; intros i; [reflexivity|].
  simpl mapi_from. simpl flat_map. now rewrite IH.
Qed.

Lemma rows_handlers fmt (l : list Message) (i : nat) :
  flat_map handlers (mapi_from i (bubble fmt) l) = [].
Proof.
  revert i. induction l as [|m l IH]; intros i; [reflexivity|].
  simpl mapi_from. simpl flat_map. now rewrite IH.
Qed.

Lemma rows_switches fmt (l : list Message) (i : nat) :
  flat_map switches (mapi_from i (bubble fmt) l) = [].
Proof.
  revert i. induction l as [|m l IH]; intros i; [reflexivity|].
  simpl mapi_from. simpl flat_map. now rewrite IH.
Qed.

Lemma rows_keys fmt (l : list Message) (i : nat) :
  flat_map keys (mapi_from i (bubble fmt) l) = seq i (List.length l).
Proof.
  revert i. induction l as [|m l IH]; intros i; [reflexivity|].
  simpl mapi_from. simpl flat_map. now rewrite IH.
Qed.

Lemma rows_classes fmt (l : list Message) (i : nat) :
  flat_map row_classes (mapi_from i (bubble fmt) l) =
  map (fun m => lit "flex " ++
                (if isBot m then lit "justify-start" else lit "justify-end"))
      l.
Proof.
  revert i. induction l as [|m l IH]; intros i; [reflexivity|].
  simpl mapi_from. simpl flat_map. simpl map. now rewrite IH.
Qed.

Ltac view_simpl :=
  unfold render, window, thread, form, header, toggle_button, thinking,
    guarded, mapi, styled, clickable;
  cbn [texts icons handlers switches keys row_classes attached flat_map app
       negb andb orb className key onClick onSubmit onChange disabled];
  rewrite ?rows_texts, ?rows_icons, ?rows_handlers, ?rows_switches,
    ?rows_keys, ?rows_classes, ?app_nil_r;
  cbn [app].

Ltac view_cases st :=
  destruct (isOpen st) eqn:?, (isMinimized st) eqn:?, (isLoading st) eqn:?,
    (isApiKeySet st) eqn:?;
  view_simpl;
  repeat match goal with
         | H : _ = true |- _ => rewrite ?H; clear H
         | H : _ = false |- _ => rewrite ?H; clear H
         end;
  view_simpl.

(** X12: open and not minimized, the view shows the header title and
    then every Message of the store in store order, each followed by its
    formatted time, with the row index as key and assistant rows aligned
    to the start and user rows to the end, and a final Thinking row while
    the loading flag is set.  Closed or minimized it shows no Message. *)
Theorem view_shows_the_store (fmt : Date -> jsstring) (st : State) :
  texts (render fmt st) =
    (if isOpen st then
       lit "AI Learning Assistant" ::
       (if isMinimized st then []
        else flat_map (fun m => [text m; fmt (timestamp m)]) (messages st)
             ++ (if isLoading st then [lit "Thinking..."] else []))
     else [lit "Chat with AI Tutor"]) /\
  keys (render fmt st) =
    (if isOpen st && negb (isMinimized st)
     then seq 0 (List.length (messages st)) else []) /\
  row_classes (render fmt st) =
    (if isOpen st && negb (isMinimized st)
     then map (fun m => lit "flex " ++
                        (if isBot m then lit "justify-start"
                         else lit "justify-end"))
              (messages st)
     else []).
Proof.
  view_cases st; repeat split.
Qed.

(** X13: closed, the only handler in the view is the click that opens the
    widget; minimized, only the clicks of the minimize and close buttons;
    expanded, those two, the submit of the form and the change of the
    input.  No row of the thread carries a handler. *)
Theorem view_offers (fmt : Date -> jsstring) (st : State) :
  handlers (render fmt st) =
    (if isOpen st then
       [AtClick ClickMinimize; AtClick ClickClose] ++
       (if isMinimized st then [] else [AtSubmit Submit; AtChange Change])
     else [AtClick ClickOpen]).
Proof.
  view_cases st; reflexivity.
Qed.


(** X15: closing does not reset the minimized flag.  A widget that is
    minimized, closed and opened again shows only its header and offers
    only the minimize and close buttons; one more click on minimize brings
    the thread back as it was. *)
Theorem reopened_widget_stays_minimized (fmt : Date -> jsstring) (w : World) :
  isOpen (hooks w) = true ->
  isMinimized (hooks w) = false ->
  let w' := run [ClickMinimize; ClickClose; ClickOpen] w in
  texts (render fmt (hooks w')) = [lit "AI Learning Assistant"] /\
  handlers (render fmt (hooks w')) =
    [AtClick ClickMinimize; AtClick ClickClose] /\
  render fmt (hooks (step w' ClickMinimize)) = render fmt (hooks w).
Proof.
  intros O Mi w'. subst w'. destruct w as [[o mi d l ms k] h n i c clk t].
  simpl in O, Mi. subst o mi. simpl hooks.
  split; [|split].
  - destruct k; reflexivity.
  - destruct k; reflexivity.
  - reflexivity.
Qed.

(** ** The further properties at concrete worlds *)

Lemma stored_messages_stay_witness :
  let evs := [Change (lit "hi"); Submit;
              Settle (reply_with (Some (lit "hello")))] in
  option_map text (nth_error (messages (hooks (run evs demo_keyed))) 0) =
    Some GREETING.
Proof.
  intros evs.
  destruct (stored_messages_stay demo_keyed evs) as [_ H].
  rewrite (H 0 {| text := GREETING; isBot := true;
                  timestamp := tick_clock 0 |} eq_refl).
  reflexivity.
Defined.



Lemma settlement_unblocks_witness :
  let w := step demo_keyed (Change (lit "hi")) in
  ignored (hooks (run [Submit; Change (lit "again")] w)) = true /\
  ignored (hooks (run [Submit;
                       Settle (OpenAI.Rejected
                                 (APIConnectionError (lit "offline")));
                       Change (lit "again")] w)) = false.
Proof.
  intros w.
  exact (settlement_unblocks w
           {| OpenAI.options :=
                {| OpenAI.apiKey := lit "sk-demo";
                   OpenAI.dangerouslyAllowBrowser := true |} |}
           (OpenAI.Rejected (APIConnectionError (lit "offline")))
           (lit "again")
           (reachable_after [Change (lit "hi")] newOpenAI_ok
              (Some (lit "sk-demo")) tick_clock)
           eq_refl eq_refl eq_refl).
Defined.


Lemma requests_match_user_messages_witness :
  let w := run [Change (lit "hi"); Submit;
                Settle (reply_with (Some (lit "hello")));
                Change (lit "more"); Submit] demo_keyed in
  map final_content (network w) = [lit "hi"; lit "more"].
Proof.
  intros w.
  rewrite (requests_match_user_messages w
             {| OpenAI.options :=
                  {| OpenAI.apiKey := lit "sk-demo";
                     OpenAI.dangerouslyAllowBrowser := true |} |}
             (reachable_after
                [Change (lit "hi"); Submit;
                 Settle (reply_with (Some (lit "hello")));
                 Change (lit "more"); Submit]
                newOpenAI_ok (Some (lit "sk-demo")) tick_clock)
             eq_refl).
  reflexivity.
Defined.


Lemma every_request_is_well_formed_witness :
  let w := run [Change (lit "hi"); Submit;
                Settle (reply_with (Some (lit "hello")));
                Change (lit "more"); Submit] demo_keyed in
  List.length (network w) = 2 /\
  Forall (fun params => OpenAI.model params = MODEL) (network w).
Proof.
  intros w. split; [reflexivity|].
  apply (Forall_impl _ (P := fun params =>
            (exists body,
                OpenAI.messages params =
                  system_record ::
                  {| OpenAI.role := OpenAI.assistant;
                     OpenAI.content := GREETING |} :: body /\
                Forall (fun r => OpenAI.role r <> OpenAI.system) body) /\
            OpenAI.model params = MODEL /\
            OpenAI.temperature params = TEMPERATURE /\
            OpenAI.max_tokens params = MAX_TOKENS)).
  - intros params (_ & H & _). exact H.
  - exact (every_request_is_well_formed w
             (reachable_after
                [Change (lit "hi"); Submit;
                 Settle (reply_with (Some (lit "hello")));
                 Change (lit "more"); Submit]
                newOpenAI_ok (Some (lit "sk-demo")) tick_clock)).
Defined.

Lemma store_is_chronological_witness :
  let w := run [Change (lit "hi"); Submit;
                Settle (reply_with (Some (lit "hello")))] demo_keyed in
  map timestamp (messages (hooks w)) =
    [tick_clock 0; tick_clock 1; tick_clock 2] /\
  (forall a b,
      nth_error (messages (hooks w)) 0 = Some a ->
      nth_error (messages (hooks w)) 2 = Some b ->
      (timestamp a <= timestamp b)%Z).
Proof.
  intros w.
  destruct (store_is_chronological w
              (reachable_after
                 [Change (lit "hi"); Submit;
                  Settle (reply_with (Some (lit "hello")))]
                 newOpenAI_ok (Some (lit "sk-demo")) tick_clock))
    as [E Mono].
  split.
  - rewrite E. reflexivity.
  - intros a b. apply Mono; [|lia].
    intros n m Le. change (tick_clock n <= tick_clock m)%Z.
    unfold tick_clock. lia.
Defined.


Lemma reopened_widget_stays_minimized_witness :
  let w := step demo_keyed ClickOpen in
  texts (render (fun _ => lit "12:00")
           (hooks (run [ClickMinimize; ClickClose; ClickOpen] w))) =
    [lit "AI Learning Assistant"].
Proof.
  intros w.
  exact (proj1 (reopened_widget_stays_minimized (fun _ => lit "12:00") w
                  eq_refl eq_refl)).
Defined.

(** * Startup failures, the console and the draft *)

(** X16: when the constructor of the client throws on a configured key,
    nothing propagates: the error is logged once, the handle stays null,
    the widget mounts with the configuration warning as its seed, and no
    sequence of events ever issues a request. *)
Theorem failed_construction_is_contained
    (newOpenAI : OpenAI.ClientOptions -> Thrown + OpenAI.Client)
    (key : jsstring) (error : Thrown) (clk : nat -> Date) :
  truthy key = true ->
  newOpenAI {| OpenAI.apiKey := key;
               OpenAI.dangerouslyAllowBrowser := true |} = inl error ->
  let w0 := mount newOpenAI (Some key) clk in
  openai w0 = None /\
  isApiKeySet (hooks w0) = false /\
  console w0 =
    [{| label := lit "Error initializing OpenAI client:";
        logged := error |}] /\
  messages (hooks w0) =
    [{| text := KEY_MISSING_SEED; isBot := true; timestamp := clk 0 |}] /\
  (forall evs, network (run evs w0) = []).
Proof.
  intros T C w0.
  assert (openai w0 = None /\
          isApiKeySet (hooks w0) = false /\
          console w0 =
            [{| label := lit "Error initializing OpenAI client:";
                logged := error |}] /\
          messages (hooks w0) =
            [{| text := KEY_MISSING_SEED; isBot := true;
                timestamp := clk 0 |}]) as (O & K & L & M).
  { subst w0. unfold mount, init_openai. rewrite T, C. repeat split. }
  repeat split; try assumption.
  intros evs.
  destruct (reachable_Inv (run evs w0)
              (reachable_after evs newOpenAI (Some key) clk)) as (_ & _ & N).
  apply N. destruct (run_keeps_config evs w0) as (E & _).
  now rewrite E.
Qed.

(** ** The console *)

Lemma step_same_but_console (w1 w2 : World) (e1 e2 : Event) :
  same_but_console w1 w2 ->
  same_but_error e1 e2 ->
  same_but_console (step w1 e1) (step w2 e2).
Proof.
  destruct w1 as [h1 o1 n1 i1 c1 clk1 t1].
  destruct w2 as [h2 o2 n2 i2 c2 clk2 t2].
  unfold same_but_console. simpl.
  intros (-> & -> & -> & -> & -> & ->) E.
  destruct E as [ev | x1 x2].
  - destruct ev; try (repeat split; reflexivity).
    + handler_simpl. destruct (ignored h2); simpl; [repeat split|].
      destruct (isApiKeySet h2); simpl; [|repeat split].
      unfold bind, readOpenai. simpl. destruct o2; simpl; repeat split.
    + handler_simpl. unfold bind, take_inflight. simpl.
      destruct i2; simpl; [repeat split|].
      destruct settled as [completion|error]; simpl; [|repeat split].
      destruct (first_choice_content completion) as [error|[reply|]]; simpl;
        [| destruct (truthy reply) |]; simpl; repeat split.
  - handler_simpl. unfold bind, take_inflight. simpl.
    destruct i2; simpl; repeat split.
Qed.

(** X17: which error a failed request carries makes no difference to
    anything but the console: two runs that differ only in the errors of
    their failures end in the same React state, hence the same rendered
    tree, and the same request log. *)
Theorem errors_stay_on_the_console (fmt : Date -> jsstring) (w : World)
    (evs1 evs2 : list Event) :
  Forall2 same_but_error evs1 evs2 ->
  hooks (run evs1 w) = hooks (run evs2 w) /\
  render fmt (hooks (run evs1 w)) = render fmt (hooks (run evs2 w)) /\
  network (run evs1 w) = network (run evs2 w).
Proof.
  intros F.
  assert (same_but_console (run evs1 w) (run evs2 w)) as (H & _ & N & _).
  { assert (same_but_console w w) as S by (repeat split).
    revert S. generalize w at 1 3. generalize w.
    induction F as [|e1 e2 l1 l2 E F IH]; intros wa wb S; simpl run.
    - exact S.
    - apply IH. now apply step_same_but_console. }
  repeat split; congruence.
Qed.

(** ** The draft *)

(** X18: in the expanded widget the input is controlled by the draft:
    after a change it shows exactly the typed value, and after an accepted
    submission it is empty, whichever branch the submission took. *)
Theorem input_follows_draft (fmt : Date -> jsstring) (w : World)
    (v : jsstring) :
  isOpen (hooks w) = true ->
  isMinimized (hooks w) = false ->
  values (render fmt (hooks w)) = [message (hooks w)] /\
  values (render fmt (hooks (step w (Change v)))) = [v] /\
  (ignored (hooks w) = false ->
   values (render fmt (hooks (step w Submit))) = [[]]).
Proof.
  intros O Mi.
  assert (forall st, isOpen st = true -> isMinimized st = false ->
                     values (render fmt st) = [message st]) as V.
  { intros st Ho Hm.
    unfold render, window, thread, form, header, toggle_button, thinking,
      guarded, mapi, styled, clickable.
    rewrite Ho, Hm.
    cbn [values flat_map app negb value].
    assert (forall l i, flat_map values (mapi_from i (bubble fmt) l) = [])
      as Rows.
    { induction l as [|m l IH]; intros i; [reflexivity|].
      simpl mapi_from. simpl flat_map. now rewrite IH. }
    rewrite Rows.
    destruct (isApiKeySet st), (isLoading st); reflexivity. }
  destruct (submit_keeps_visibility w) as (Ho & Hm).
  split; [|split].
  - now apply V.
  - now rewrite V.
  - intros G. rewrite V; [now rewrite (accepted_clears_draft w G) | |].
    + now rewrite Ho.
    + now rewrite Hm.
Qed.

Lemma failed_construction_is_contained_witness :
  let w0 := mount (fun _ => inl (ThrownValue (lit "boom")))
                  (Some (lit "sk-bad")) tick_clock in
  map text (messages (hooks w0)) = [KEY_MISSING_SEED] /\
  List.length (console w0) = 1 /\
  network (run [Change (lit "hi"); Submit] w0) = [].
Proof.
  intros w0.
  destruct (failed_construction_is_contained
              (fun _ => inl (ThrownValue (lit "boom")))
              (lit "sk-bad") (ThrownValue (lit "boom")) tick_clock
              eq_refl eq_refl) as (_ & _ & L & M & N).
  split; [|split].
  - subst w0. rewrite M. reflexivity.
  - subst w0. rewrite L. reflexivity.
  - apply N.
Defined.

Lemma errors_stay_on_the_console_witness :
  let before := [Change (lit "hi"); Submit] in
  let evs1 := before ++
    [Settle (OpenAI.Rejected (APIStatusError 500 (lit "Internal Server Error")))] in
  let evs2 := before ++
    [Settle (OpenAI.Rejected (APIConnectionError (lit "offline")))] in
  hooks (run evs1 demo_keyed) = hooks (run evs2 demo_keyed) /\
  console (run evs1 demo_keyed) <> console (run evs2 demo_keyed).
Proof.
  intros before evs1 evs2. split.
  - apply (errors_stay_on_the_console (fun _ => lit "12:00") demo_keyed
             evs1 evs2).
    repeat constructor.
  - discriminate.
Defined.

Lemma input_follows_draft_witness :
  let w := run [ClickOpen; Change (lit "  hi ")] demo_keyed in
  values (render (fun _ => lit "12:00") (hooks w)) = [lit "  hi "] /\
  values (render (fun _ => lit "12:00") (hooks (step w Submit))) = [[]].
Proof.
  intros w.
  destruct (input_follows_draft (fun _ => lit "12:00") w (lit "x")
              eq_refl eq_refl) as (H1 & _ & H3).
  split; [exact H1 | exact (H3 eq_refl)].
Defined.
